(** * serve_streamlit.py: deployment descriptor and launcher

    A shallow embedding of [src/serve_streamlit.py].  The script is evaluated
    once as a Python module (path constants, an existence check that may
    raise, an image description, an application registration) and defines one
    entry point, [run], which builds a shell command line and hands it to
    [subprocess.Popen].

    The third-party interfaces the script calls are modelled next to it:
    [shlex.quote] after CPython's [Lib/shlex.py], the word splitting of the
    POSIX shell that receives the command line, the pure part of [pathlib],
    the builder calls of the hosting platform's client library, and the
    version specifiers of PEP 440 that the requirement strings are written
    in. *)

From Stdlib Require Import Bool List String Ascii NArith ZArith Lia.
Import ListNotations.
Open Scope string_scope.

(** ** Characters and strings *)

Definition squote : ascii := "'"%char.
Definition dquote : ascii := ascii_of_nat 34.

Definition str1 (c : ascii) : string := String c EmptyString.

Fixpoint forallb_string (f : ascii -> bool) (s : string) : bool :=
  match s with
  | EmptyString => true
  | String c r => f c && forallb_string f r
  end.

Fixpoint mem_string (c : ascii) (s : string) : bool :=
  match s with
  | EmptyString => false
  | String d r => Ascii.eqb c d || mem_string c r
  end.

(** Python's [sub in s]. *)
Fixpoint contains (s sub : string) : bool :=
  String.prefix sub s ||
  match s with
  | EmptyString => false
  | String _ r => contains r sub
  end.

(** ** shlex.quote *)

Module Shlex.

(** [\w] under [re.ASCII]: letters, digits and the underscore. *)
Definition is_word_char (c : ascii) : bool :=
  let n := N_of_ascii c in
  (((48 <=? n) && (n <=? 57)) || ((65 <=? n) && (n <=? 90)) ||
   ((97 <=? n) && (n <=? 122)) || (n =? 95))%N.

(** The complement of the class [[^\w@%+=:,./-]]. *)
Definition is_safe_char (c : ascii) : bool :=
  is_word_char c || mem_string c "@%+=:,./-".

(** [_find_unsafe(s)]: the first character matched by the class, if any. *)
Fixpoint find_unsafe (s : string) : option ascii :=
  match s with
  | EmptyString => None
  | String c r => if is_safe_char c then find_unsafe r else Some c
  end.

(** The replacement text of a single quote: close the quoted run, give the
    quote between double quotes, open a new quoted run. *)
Definition squote_escape : string :=
  String squote (String dquote (String squote (String dquote (str1 squote)))).

(** [s.replace("'", squote_escape)]. *)
Fixpoint replace_squote (s : string) : string :=
  match s with
  | EmptyString => EmptyString
  | String c r =>
      if Ascii.eqb c squote then squote_escape ++ replace_squote r
      else String c (replace_squote r)
  end.

Definition quote (s : string) : string :=
  match s with
  | EmptyString => "''"
  | _ =>
      match find_unsafe s with
      | None => s
      | Some _ => str1 squote ++ replace_squote s ++ str1 squote
      end
  end.

End Shlex.

(** ** Word splitting in the shell

    [subprocess.Popen(cmd, shell=True)] runs [/bin/sh -c cmd].  The lexer
    below covers the fragment of the shell grammar made of one simple command
    whose words are literal: blanks separate words, single quotes keep every
    character, double quotes keep every character but [$], the backquote and
    the backslash.  Anything that would start an operator, an expansion, a
    comment or a pattern, and any quote left open, takes the line out of the
    fragment ([None]). *)

Module Sh.

Inductive mode := Unquoted | InSingle | InDouble.

Definition is_blank (c : ascii) : bool :=
  Ascii.eqb c " "%char || Ascii.eqb c (ascii_of_nat 9).

(** Characters with a meaning of their own outside quotes: the operator
    and expansion characters, the newline, and the characters of patterns,
    comments, tilde and brace expansion and history. *)
Definition is_special (c : ascii) : bool :=
  Ascii.eqb c (ascii_of_nat 10) || mem_string c "|&;<>()$`\*?[]#~!{}^".

(** Inside double quotes. *)
Definition is_special_in_double (c : ascii) : bool :=
  mem_string c "$`\".

Definition word_of (cur : option string) : string :=
  match cur with
  | None => EmptyString
  | Some w => w
  end.

Definition push (cur : option string) (c : ascii) : option string :=
  Some (word_of cur ++ str1 c).

Definition flush (cur : option string) : list string :=
  match cur with
  | None => []
  | Some w => [w]
  end.

Fixpoint lex (m : mode) (cur : option string) (acc : list string)
         (s : string) : option (list string) :=
  match s with
  | EmptyString =>
      match m with
      | Unquoted => Some (acc ++ flush cur)%list
      | _ => None
      end
  | String c r =>
      match m with
      | Unquoted =>
          if is_blank c then lex Unquoted None (acc ++ flush cur)%list r
          else if Ascii.eqb c squote then lex InSingle (Some (word_of cur)) acc r
          else if Ascii.eqb c dquote then lex InDouble (Some (word_of cur)) acc r
          else if is_special c then None
          else lex Unquoted (push cur c) acc r
      | InSingle =>
          if Ascii.eqb c squote then lex Unquoted cur acc r
          else lex InSingle (push cur c) acc r
      | InDouble =>
          if Ascii.eqb c dquote then lex Unquoted cur acc r
          else if is_special_in_double c then None
          else lex InDouble (push cur c) acc r
      end
  end.

(** The argument vector of the command line, when it is in the fragment. *)
Definition words (s : string) : option (list string) :=
  lex Unquoted None [] s.

End Sh.

(** ** The launch command of [run] *)

Definition streamlit_script_remote_path : string := "/root/app.py".

Definition launch_flags : string :=
  " --server.port 8000 --server.enableCORS=false --server.enableXsrfProtection=false --server.headless=true".

(** Lines 36-37 of the script, with the module constant as a parameter. *)
Definition launch_cmd (remote_path : string) : string :=
  let target := Shlex.quote remote_path in
  "streamlit run " ++ target ++ launch_flags.

(** ** pathlib

    A path is its anchor and its components; only the pure operations the
    script uses are modelled. *)

Module Pathlib.

Record Path := mkPath { absolute : bool; parts : list string }.

(** [p.parent]: the path without its last component; the parent of an
    anchor or of the empty relative path is the path itself. *)
Definition parent (p : Path) : Path :=
  mkPath (absolute p) (removelast (parts p)).

(** [p / name] for a relative one-component [name]. *)
Definition joinpath (p : Path) (name : string) : Path :=
  mkPath (absolute p) (parts p ++ [name])%list.

Fixpoint parts_eqb (a b : list string) : bool :=
  match a, b with
  | [], [] => true
  | x :: a', y :: b' => String.eqb x y && parts_eqb a' b'
  | _, _ => false
  end.

Definition eqb (p q : Path) : bool :=
  Bool.eqb (absolute p) (absolute q) && parts_eqb (parts p) (parts q).

(** The last component, [p.name]. *)
Definition name (p : Path) : string := last (parts p) EmptyString.

End Pathlib.

(** The file system as [Path.exists] sees it. *)
Definition FileSystem := Pathlib.Path -> bool.

(** ** subprocess

    The calls a program can make on child processes, recorded in order.
    [Popen] starts the child and returns its handle at once; [wait], [poll]
    and [communicate] are the calls that look at or wait for a child. *)

Module Subprocess.

Inductive op :=
| OpPopen (args : string) (shell : bool)
| OpWait (child : nat)
| OpPoll (child : nat)
| OpCommunicate (child : nat).

Definition observes_child (o : op) : bool :=
  match o with
  | OpPopen _ _ => false
  | OpWait _ | OpPoll _ | OpCommunicate _ => true
  end.

Definition is_popen (o : op) : bool :=
  match o with
  | OpPopen _ _ => true
  | _ => false
  end.

(** A computation at run time: the calls made so far are threaded. *)
Definition IO (A : Type) : Type := list op -> A * list op.

Definition ret {A} (a : A) : IO A := fun t => (a, t).

Definition bind {A B} (c : IO A) (k : A -> IO B) : IO B :=
  fun t => let (a, t') := c t in k a t'.

(** [subprocess.Popen(args, shell=shell)]: the handle is the index of the
    call. *)
Definition Popen (args : string) (shell : bool) : IO nat :=
  fun t => (List.length t, (t ++ [OpPopen args shell])%list).

(** The command lines started by a trace, in order. *)
Fixpoint launched (t : list op) : list string :=
  match t with
  | [] => []
  | OpPopen args _ :: r => args :: launched r
  | _ :: r => launched r
  end.

End Subprocess.

(** The entry point (lines 35-38).  The handle is dropped and the function
    returns [None]. *)
Definition run : Subprocess.IO unit :=
  let cmd := launch_cmd streamlit_script_remote_path in
  Subprocess.bind (Subprocess.Popen cmd true) (fun _ => Subprocess.ret tt).

(** ** The platform's client library *)

Module Modal.

Record Image := mkImage {
  base : string;
  python_version : string;
  pip_packages : list string;
  local_files : list (Pathlib.Path * string)
}.

(** An entry point under decoration. *)
Record Function := mkFunction {
  raw_f : Subprocess.IO unit;
  web_server_port : option Z;
  max_concurrent_inputs : option Z
}.

Record App := mkApp {
  app_name : string;
  app_image : Image;
  registered : list (string * Function)
}.

(** The calls into the library, in the order they are made. *)
Inductive call :=
| CallDebianSlim
| CallUvPipInstall
| CallAddLocalFile
| CallApp (name : string)
| CallWebServer
| CallConcurrent
| CallAppFunction (fname : string).

Definition creates_image (c : call) : bool :=
  match c with
  | CallDebianSlim | CallUvPipInstall | CallAddLocalFile => true
  | _ => false
  end.

Definition creates_app (c : call) : bool :=
  match c with
  | CallApp _ => true
  | _ => false
  end.

Definition registers_function (c : call) : bool :=
  match c with
  | CallAppFunction _ => true
  | _ => false
  end.

End Modal.

(** ** Module evaluation: a log of library calls and an exception *)

Inductive exn := RuntimeError (msg : string).

Definition exn_message (e : exn) : string :=
  match e with
  | RuntimeError msg => msg
  end.

Inductive result (A : Type) :=
| Ok (a : A)
| Raise (e : exn).
Arguments Ok {A} a.
Arguments Raise {A} e.

Definition M (A : Type) : Type := list Modal.call -> result A * list Modal.call.

Definition ret {A} (a : A) : M A := fun log => (Ok a, log).

Definition raise {A} (e : exn) : M A := fun log => (Raise e, log).

Definition bind {A B} (c : M A) (k : A -> M B) : M B :=
  fun log =>
    match c log with
    | (Ok a, log') => k a log'
    | (Raise e, log') => (Raise e, log')
    end.

Definition called (c : Modal.call) : M unit :=
  fun log => (Ok tt, (log ++ [c])%list).

Notation "x <- c ;; k" := (bind c (fun x => k))
  (at level 61, c at next level, right associativity).
Notation "c ;;; k" := (bind c (fun _ => k))
  (at level 61, right associativity).

Module ModalCalls.
Import Modal.

Definition debian_slim (python_version : string) : M Image :=
  called CallDebianSlim ;;;
  ret (mkImage "debian_slim" python_version [] []).

Definition uv_pip_install (img : Image) (packages : list string) : M Image :=
  called CallUvPipInstall ;;;
  ret (mkImage (base img) (python_version img)
               (pip_packages img ++ packages)%list (local_files img)).

Definition add_local_file (img : Image) (local_path : Pathlib.Path)
           (remote_path : string) : M Image :=
  called CallAddLocalFile ;;;
  ret (mkImage (base img) (python_version img) (pip_packages img)
               (local_files img ++ [(local_path, remote_path)])%list).

Definition new_App (name : string) (image : Image) : M App :=
  called (CallApp name) ;;;
  ret (mkApp name image []).

(** [modal.web_server(port)] applied to a function. *)
Definition web_server (port : Z) (f : Subprocess.IO unit) : M Function :=
  called CallWebServer ;;;
  ret (mkFunction f (Some port) None).

(** [modal.concurrent(max_inputs=n)] applied to a function. *)
Definition concurrent (max_inputs : Z) (f : Function) : M Function :=
  called CallConcurrent ;;;
  ret (mkFunction (raw_f f) (web_server_port f) (Some max_inputs)).

(** [app.function()] applied to a function named [fname]: the function is
    entered in the application's registry. *)
Definition app_function (app : App) (fname : string) (f : Function) : M App :=
  called (CallAppFunction fname) ;;;
  ret (mkApp (app_name app) (app_image app)
             (registered app ++ [(fname, f)])%list).

End ModalCalls.

(** ** Requirement strings and version specifiers (PEP 508, PEP 440)

    Final releases only: a version is its release segments, compared with
    missing segments read as zero. *)

Module Pep440.

Definition release := list N.

Fixpoint compare (a b : release) : comparison :=
  match a with
  | [] => if forallb (N.eqb 0) b then Eq else Lt
  | x :: a' =>
      match b with
      | [] =>
          match N.compare x 0 with
          | Eq => compare a' []
          | c => c
          end
      | y :: b' =>
          match N.compare x y with
          | Eq => compare a' b'
          | c => c
          end
      end
  end.

(** [== pre.*]: the candidate, padded with zeros, starts with [pre]. *)
Fixpoint prefix_match (pre v : release) : bool :=
  match pre with
  | [] => true
  | x :: pre' =>
      match v with
      | [] => N.eqb x 0 && prefix_match pre' []
      | y :: v' => N.eqb x y && prefix_match pre' v'
      end
  end.

Inductive operator :=
| Compatible      (* ~= *)
| Equal           (* == *)
| NotEqual        (* != *)
| LessEqual       (* <= *)
| GreaterEqual    (* >= *)
| Less            (* <  *)
| Greater.        (* >  *)

Definition is_eq (c : comparison) : bool :=
  match c with Eq => true | _ => false end.
Definition is_lt (c : comparison) : bool :=
  match c with Lt => true | _ => false end.
Definition is_gt (c : comparison) : bool :=
  match c with Gt => true | _ => false end.

(** [~= V.N] reads [>= V.N, == V.*] and needs two segments at least. *)
Definition matches (o : operator) (spec v : release) : bool :=
  match o with
  | Compatible =>
      (2 <=? List.length spec)%nat &&
      negb (is_lt (compare v spec)) && prefix_match (removelast spec) v
  | Equal => is_eq (compare v spec)
  | NotEqual => negb (is_eq (compare v spec))
  | LessEqual => negb (is_gt (compare v spec))
  | GreaterEqual => negb (is_lt (compare v spec))
  | Less => is_lt (compare v spec)
  | Greater => is_gt (compare v spec)
  end.

Record requirement := mkRequirement {
  req_name : string;
  req_spec : option (operator * release)
}.

(** A requirement without a specifier accepts every version. *)
Definition satisfies (r : requirement) (v : release) : bool :=
  match req_spec r with
  | None => true
  | Some (o, spec) => matches o spec v
  end.

(** A requirement pins a version when no two different versions satisfy
    it. *)
Definition pins_exact (r : requirement) : Prop :=
  forall v w, satisfies r v = true -> satisfies r w = true ->
              compare v w = Eq.

Definition is_digit (c : ascii) : bool :=
  let n := N_of_ascii c in ((48 <=? n) && (n <=? 57))%N.

Definition digit_value (c : ascii) : N := (N_of_ascii c - 48)%N.

Definition is_name_char (c : ascii) : bool :=
  Shlex.is_word_char c || mem_string c "-.".

Fixpoint parse_release (s : string) (cur : option N) : option release :=
  match s with
  | EmptyString =>
      match cur with
      | Some n => Some [n]
      | None => None
      end
  | String c r =>
      if is_digit c then
        let n := match cur with Some n => n | None => 0%N end in
        parse_release r (Some (10 * n + digit_value c)%N)
      else if Ascii.eqb c "."%char then
        match cur with
        | Some n => option_map (cons n) (parse_release r None)
        | None => None
        end
      else None
  end.

Definition parse_specifier (s : string) : option (operator * release) :=
  let with_op o r := option_map (pair o) (parse_release r None) in
  match s with
  | String "~" (String "=" r) => with_op Compatible r
  | String "=" (String "=" r) => with_op Equal r
  | String "!" (String "=" r) => with_op NotEqual r
  | String "<" (String "=" r) => with_op LessEqual r
  | String ">" (String "=" r) => with_op GreaterEqual r
  | String "<" r => with_op Less r
  | String ">" r => with_op Greater r
  | _ => None
  end.

(** [name] or [name OP version]. *)
Fixpoint parse_requirement_from (name s : string) : option requirement :=
  match s with
  | EmptyString =>
      match name with
      | EmptyString => None
      | _ => Some (mkRequirement name None)
      end
  | String c r =>
      if is_name_char c then parse_requirement_from (name ++ str1 c) r
      else
        match name, parse_specifier s with
        | String _ _, Some spec => Some (mkRequirement name (Some spec))
        | _, _ => None
        end
  end.

Definition parse_requirement (s : string) : option requirement :=
  parse_requirement_from EmptyString s.

End Pep440.

(** ** The script *)

(** The names bound by a complete evaluation of the module. *)
Record Namespace := mkNamespace {
  ns_local_path : Pathlib.Path;
  ns_remote_path : string;
  ns_image : Modal.Image;
  ns_app : Modal.App
}.

Definition not_found_message : string :=
  "app.py not found! Place the script with your streamlit app in the same directory.".

(** Line 7: [Path(__file__).parent / "app.py"], for a script at [file]. *)
Definition local_path_of (file : Pathlib.Path) : Pathlib.Path :=
  Pathlib.joinpath (Pathlib.parent file) "app.py".

(** The arguments of [uv_pip_install] (lines 19-21). *)
Definition uv_pip_install_args : list string :=
  ["streamlit~=1.35.0"; "numpy~=1.26.4"; "pandas~=2.2.2"].

(** Lines 7-34, for the file system [fs] and the script's own location
    [file] ([__file__]).  Decorators are applied from the innermost one. *)
Definition module_body (fs : FileSystem) (file : Pathlib.Path) : M Namespace :=
  let streamlit_script_local_path := local_path_of file in
  (if negb (fs streamlit_script_local_path)
   then raise (RuntimeError not_found_message)
   else ret tt) ;;;
  i0 <- ModalCalls.debian_slim "3.11" ;;
  i1 <- ModalCalls.uv_pip_install i0 uv_pip_install_args ;;
  image <- ModalCalls.add_local_file i1 streamlit_script_local_path
             streamlit_script_remote_path ;;
  app <- ModalCalls.new_App "streamlit-dashboard" image ;;
  f1 <- ModalCalls.web_server 8000 run ;;
  f2 <- ModalCalls.concurrent 100 f1 ;;
  app' <- ModalCalls.app_function app "run" f2 ;;
  ret (mkNamespace streamlit_script_local_path streamlit_script_remote_path
                   image app').

(** Evaluating the module from scratch. *)
Definition evaluate (fs : FileSystem) (file : Pathlib.Path)
  : result Namespace * list Modal.call :=
  module_body fs file [].

(** ** Reference values for the statements *)

(** The argument vector the launch command stands for. *)
Definition launch_argv (remote_path : string) : list string :=
  ["streamlit"; "run"; remote_path; "--server.port"; "8000";
   "--server.enableCORS=false"; "--server.enableXsrfProtection=false";
   "--server.headless=true"].

(** Every requirement parses, the names are the three packages, and each
    requirement pins one version. *)
Definition packages_pinned_exactly (args : list string) : Prop :=
  exists rs,
    map Pep440.parse_requirement args = map Some rs /\
    map Pep440.req_name rs = ["streamlit"; "numpy"; "pandas"] /\
    Forall Pep440.pins_exact rs.

(** A script at [/srv/serve_streamlit.py], with and without its
    [app.py]. *)
Definition script_file : Pathlib.Path :=
  Pathlib.mkPath true ["srv"; "serve_streamlit.py"].

Definition fs_with_app : FileSystem :=
  fun p => Pathlib.eqb p (Pathlib.mkPath true ["srv"; "app.py"]).

Definition fs_without_app : FileSystem :=
  fun p => Pathlib.eqb p script_file.

(** * Properties *)

(** ** Strings *)

Lemma append_empty_r (s : string) : s ++ EmptyString = s.
Proof.
  induction s as [|c s IH]; simpl; [reflexivity | now rewrite IH].
Qed.

Lemma append_assoc' (a b c : string) : (a ++ b) ++ c = a ++ (b ++ c).
Proof.
  induction a as [|x a IH]; simpl; [reflexivity | now rewrite IH].
Qed.

Lemma append_snoc (a : string) (c : ascii) (b : string) :
  (a ++ str1 c) ++ b = a ++ String c b.
Proof.
  now rewrite append_assoc'.
Qed.

Lemma prefix_spec (a b : string) :
  String.prefix a b = true <-> exists r, b = a ++ r.
Proof.
  revert b; induction a as [|x a IH]; intros b; simpl.
  - split; [intros _; now exists b | intros _; now destruct b].
  - destruct b as [|y b].
    + split; [discriminate | intros [r H]; discriminate H].
    + simpl. destruct (ascii_dec x y) as [->|Hne].
      * rewrite IH. split; intros [r H]; exists r.
        -- now rewrite H.
        -- now injection H.
      * split; [discriminate | intros [r H]; injection H; congruence].
Qed.

(** [contains] is Python's [in]: some occurrence, anywhere. *)
Lemma contains_spec (s sub : string) :
  contains s sub = true <-> exists pre post, s = pre ++ sub ++ post.
Proof.
  induction s as [|c s IH].
  - cbn [contains]. rewrite orb_false_r, prefix_spec. split.
    + intros [r H]. now exists EmptyString, r.
    + intros [pre [post H]]. destruct pre; [now exists post | discriminate H].
  - cbn [contains]. rewrite orb_true_iff, prefix_spec, IH. split.
    + intros [[r H] | [pre [post H]]].
      * now exists EmptyString, r.
      * exists (String c pre), post. simpl. now rewrite H.
    + intros [pre [post H]]. destruct pre as [|x pre].
      * left. now exists post.
      * right. exists pre, post. simpl in H. now injection H.
Qed.

Lemma contains_append_l (a s sub : string) :
  contains s sub = true -> contains (a ++ s) sub = true.
Proof.
  intros H. induction a as [|c a IH]; [exact H |].
  cbn [append contains]. rewrite IH. apply orb_true_r.
Qed.

Lemma last_snoc (l : list string) (x d : string) : last (l ++ [x]) d = x.
Proof.
  induction l as [|y l IH]; [reflexivity |].
  simpl. destruct (l ++ [x])%list eqn:E; [destruct l; discriminate E | exact IH].
Qed.

(** ** shlex.quote against the shell's lexer *)

Lemma safe_char_is_literal (c : ascii) :
  Shlex.is_safe_char c = true ->
  Sh.is_blank c = false /\ Ascii.eqb c squote = false /\
  Ascii.eqb c dquote = false /\ Sh.is_special c = false.
Proof.
  destruct c as [[] [] [] [] [] [] [] []]; vm_compute; intros H;
    try discriminate H; repeat split.
Qed.

Lemma find_unsafe_none (s : string) :
  Shlex.find_unsafe s = None -> forallb_string Shlex.is_safe_char s = true.
Proof.
  induction s as [|c s IH]; simpl; [reflexivity |].
  destruct (Shlex.is_safe_char c); [exact IH | discriminate].
Qed.

(** A run of safe characters is read as itself. *)
Lemma lex_safe_run (s cur : string) (acc : list string) (rest : string) :
  forallb_string Shlex.is_safe_char s = true ->
  Sh.lex Sh.Unquoted (Some cur) acc (s ++ rest) =
  Sh.lex Sh.Unquoted (Some (cur ++ s)) acc rest.
Proof.
  revert cur; induction s as [|c s IH]; intros cur Hs.
  - simpl. now rewrite append_empty_r.
  - simpl in Hs. apply andb_true_iff in Hs as [Hc Hs].
    destruct (safe_char_is_literal c Hc) as (Hb & Hq & Hd & Hx).
    simpl. rewrite Hb, Hq, Hd, Hx.
    unfold Sh.push; simpl. rewrite IH by exact Hs.
    now rewrite append_snoc.
Qed.

(** Inside single quotes every character stands for itself, and the escape
    of a single quote leaves and re-enters the quotes with the quote added to
    the word. *)
Lemma lex_single_run (s cur : string) (acc : list string) (rest : string) :
  Sh.lex Sh.InSingle (Some cur) acc
         (Shlex.replace_squote s ++ String squote rest) =
  Sh.lex Sh.Unquoted (Some (cur ++ s)) acc rest.
Proof.
  revert cur; induction s as [|c s IH]; intros cur.
  - simpl. now rewrite append_empty_r.
  - simpl. destruct (Ascii.eqb c squote) eqn:E.
    + apply Ascii.eqb_eq in E. subst c.
      unfold Shlex.squote_escape, str1. simpl.
      unfold Sh.push; simpl. rewrite IH. now rewrite append_snoc.
    + simpl. rewrite E. unfold Sh.push; simpl. rewrite IH.
      now rewrite append_snoc.
Qed.

(** The quoted form of any string, followed by a blank, is read by the
    shell as one word: the string. *)
Lemma lex_quote (p : string) (acc : list string) (rest : string) :
  Sh.lex Sh.Unquoted None acc (Shlex.quote p ++ String " " rest) =
  Sh.lex Sh.Unquoted None (acc ++ [p]) rest.
Proof.
  unfold Shlex.quote. destruct p as [|c p]; [reflexivity |].
  destruct (Shlex.find_unsafe (String c p)) eqn:E.
  - unfold str1. rewrite !append_assoc'. cbn [append].
    change (Sh.lex Sh.Unquoted None acc
              (String squote (Shlex.replace_squote (String c p)
                 ++ String squote (String " " rest))))
      with (Sh.lex Sh.InSingle (Some EmptyString) acc
              (Shlex.replace_squote (String c p)
                 ++ String squote (String " " rest))).
    rewrite lex_single_run. reflexivity.
  - apply find_unsafe_none in E. simpl in E.
    apply andb_true_iff in E as [Hc Hp].
    destruct (safe_char_is_literal c Hc) as (Hb & Hq & Hd & Hx).
    simpl. rewrite Hb, Hq, Hd, Hx.
    unfold Sh.push; simpl. rewrite lex_safe_run by exact Hp.
    reflexivity.
Qed.

(** The shell reads the launch command, for any remote path, as the eight
    words of [launch_argv]. *)
Lemma words_launch_cmd (p : string) :
  Sh.words (launch_cmd p) = Some (launch_argv p).
Proof.
  unfold Sh.words, launch_cmd, launch_flags.
  change (Sh.lex Sh.Unquoted None []
            ("streamlit run " ++ Shlex.quote p ++ String " "
               "--server.port 8000 --server.enableCORS=false --server.enableXsrfProtection=false --server.headless=true"))
    with (Sh.lex Sh.Unquoted None ["streamlit"; "run"]
            (Shlex.quote p ++ String " "
               "--server.port 8000 --server.enableCORS=false --server.enableXsrfProtection=false --server.headless=true")).
  rewrite lex_quote. reflexivity.
Qed.

Lemma quote_remote_path :
  Shlex.quote streamlit_script_remote_path = streamlit_script_remote_path.
Proof. reflexivity. Qed.

(** ** Module evaluation *)

Lemma evaluate_present (fs : FileSystem) (file : Pathlib.Path) :
  fs (local_path_of file) = true ->
  exists ns,
    evaluate fs file =
      (Ok ns,
       [Modal.CallDebianSlim; Modal.CallUvPipInstall; Modal.CallAddLocalFile;
        Modal.CallApp "streamlit-dashboard"; Modal.CallWebServer;
        Modal.CallConcurrent; Modal.CallAppFunction "run"]) /\
    ns_local_path ns = local_path_of file /\
    ns_remote_path ns = streamlit_script_remote_path /\
    ns_image ns =
      Modal.mkImage "debian_slim" "3.11" uv_pip_install_args
        [(local_path_of file, streamlit_script_remote_path)] /\
    ns_app ns =
      Modal.mkApp "streamlit-dashboard" (ns_image ns)
        [("run", Modal.mkFunction run (Some 8000%Z) (Some 100%Z))].
Proof.
  intros H. unfold evaluate, module_body. rewrite H.
  eexists. split; [reflexivity |]. repeat split.
Qed.

Lemma evaluate_missing (fs : FileSystem) (file : Pathlib.Path) :
  fs (local_path_of file) = false ->
  evaluate fs file = (Raise (RuntimeError not_found_message), []).
Proof.
  intros H. unfold evaluate, module_body. rewrite H. reflexivity.
Qed.

Lemma run_trace (t : list Subprocess.op) :
  run t =
  (tt, t ++ [Subprocess.OpPopen (launch_cmd streamlit_script_remote_path) true])%list.
Proof. reflexivity. Qed.

(** ** Compatible-release specifiers *)

Lemma compatible_three (x y z a b c : N) :
  Pep440.matches Pep440.Compatible [x; y; z] [a; b; c] = true <->
  a = x /\ b = y /\ (z <= c)%N.
Proof.
  unfold Pep440.matches. cbn [List.length Nat.leb removelast andb
    Pep440.prefix_match Pep440.compare].
  rewrite andb_true_r, !andb_true_iff, !N.eqb_eq, negb_true_iff.
  split.
  - intros [Hc [-> ->]]. rewrite !N.compare_refl in Hc.
    repeat split. destruct (c ?= z)%N eqn:E.
    + apply N.compare_eq_iff in E. lia.
    + discriminate Hc.
    + apply N.compare_gt_iff in E. lia.
  - intros (-> & -> & Hle). rewrite !N.compare_refl.
    split; [| now split]. destruct (c ?= z)%N eqn:E.
    + reflexivity.
    + change (c < z)%N in E. lia.
    + reflexivity.
Qed.

(** * The claims *)

(** C1. When [app.py] is present next to the script, the module evaluates,
    registers [run], and the command line [run] hands to [Popen] is exactly
    [streamlit run /root/app.py --server.port 8000 --server.enableCORS=false
    --server.enableXsrfProtection=false --server.headless=true]; quoting the
    constant remote path leaves it unchanged. *)
Theorem run_command_is_literal (fs : FileSystem) (file : Pathlib.Path) :
  fs (local_path_of file) = true ->
  exists ns log f,
    evaluate fs file = (Ok ns, log) /\
    Modal.registered (ns_app ns) = [("run", f)] /\
    Shlex.quote (ns_remote_path ns) = "/root/app.py" /\
    forall t,
      Modal.raw_f f t =
      (tt,
       t ++ [Subprocess.OpPopen
               "streamlit run /root/app.py --server.port 8000 --server.enableCORS=false --server.enableXsrfProtection=false --server.headless=true"
               true])%list.
Proof.
  intros H.
  destruct (evaluate_present fs file H) as (ns & He & _ & Hr & _ & Ha).
  exists ns. eexists. eexists. split; [exact He |].
  rewrite Ha, Hr. cbn [Modal.registered Modal.raw_f].
  split; [reflexivity |]. split; [reflexivity |].
  intros t. apply run_trace.
Qed.

Lemma run_command_is_literal_witness :
  fs_with_app (local_path_of script_file) = true /\
  exists ns log,
    evaluate fs_with_app script_file = (Ok ns, log) /\
    Shlex.quote (ns_remote_path ns) = "/root/app.py".
Proof.
  split; [reflexivity |].
  destruct (run_command_is_literal fs_with_app script_file eq_refl)
    as (ns & log & f & He & _ & Hq & _).
  exists ns, log. split; [exact He | exact Hq].
Defined.

(** C2. For every remote path, the launch command carries the path in the
    form [shlex.quote] gives it, and the shell reads that command as one
    simple command of eight literal words whose third word is the path
    itself: no operator, expansion or open quote comes out of the path. *)
Theorem remote_path_is_shell_escaped (p : string) :
  launch_cmd p = "streamlit run " ++ Shlex.quote p ++ launch_flags /\
  Sh.words (launch_cmd p) = Some (launch_argv p) /\
  nth_error (launch_argv p) 2 = Some p.
Proof.
  split; [reflexivity |]. split; [apply words_launch_cmd | reflexivity].
Qed.

(** C3. When [app.py] is missing from the script's directory, evaluating
    the module raises a [RuntimeError] whose message names [app.py], and no
    call into the platform library has been made by then: no image and no
    application has been created. *)
Theorem missing_file_raises_first (fs : FileSystem) (file : Pathlib.Path) :
  fs (local_path_of file) = false ->
  exists msg log,
    evaluate fs file = (Raise (RuntimeError msg), log) /\
    log = [] /\
    existsb Modal.creates_image log = false /\
    existsb Modal.creates_app log = false /\
    contains msg "app.py" = true /\
    Pathlib.name (local_path_of file) = "app.py" /\
    Pathlib.parent (local_path_of file) = Pathlib.parent file.
Proof.
  intros H. exists not_found_message, [].
  split; [now apply evaluate_missing |]. do 4 (split; [reflexivity |]).
  unfold local_path_of, Pathlib.name, Pathlib.parent, Pathlib.joinpath.
  cbn [Pathlib.parts Pathlib.absolute].
  split; [apply last_snoc | now rewrite removelast_last].
Qed.

Lemma missing_file_raises_first_witness :
  fs_without_app (local_path_of script_file) = false /\
  exists msg,
    evaluate fs_without_app script_file = (Raise (RuntimeError msg), []) /\
    contains msg "app.py" = true.
Proof.
  split; [reflexivity |].
  destruct (missing_file_raises_first fs_without_app script_file eq_refl)
    as (msg & log & He & -> & _ & _ & Hc & _).
  exists msg. split; [exact He | exact Hc].
Defined.

(** C4. For every remote path, the launch command contains each of the
    four flag texts. *)
Theorem launch_cmd_contains_flags (p : string) :
  contains (launch_cmd p) "--server.port 8000" = true /\
  contains (launch_cmd p) "--server.enableCORS=false" = true /\
  contains (launch_cmd p) "--server.enableXsrfProtection=false" = true /\
  contains (launch_cmd p) "--server.headless=true" = true.
Proof.
  unfold launch_cmd. cbv zeta.
  rewrite <- (append_assoc' "streamlit run " (Shlex.quote p) launch_flags).
  repeat split; apply contains_append_l; reflexivity.
Qed.

(** C5. When [app.py] exists next to the script, evaluating the module
    raises nothing and yields an image whose only embedded file is that
    [app.py], placed at [/root/app.py]; the application is built on this
    image. *)
Theorem present_file_builds_image (fs : FileSystem) (file : Pathlib.Path) :
  fs (local_path_of file) = true ->
  exists ns log,
    evaluate fs file = (Ok ns, log) /\
    Modal.local_files (ns_image ns) = [(local_path_of file, "/root/app.py")] /\
    Pathlib.name (local_path_of file) = "app.py" /\
    Pathlib.parent (local_path_of file) = Pathlib.parent file /\
    Modal.app_image (ns_app ns) = ns_image ns.
Proof.
  intros H.
  destruct (evaluate_present fs file H) as (ns & He & _ & _ & Hi & Ha).
  exists ns. eexists. split; [exact He |].
  rewrite Ha, Hi. cbn [Modal.local_files Modal.app_image].
  split; [reflexivity |].
  unfold local_path_of, Pathlib.name, Pathlib.parent, Pathlib.joinpath.
  cbn [Pathlib.parts Pathlib.absolute].
  split; [apply last_snoc |]. split; [now rewrite removelast_last | reflexivity].
Qed.

Lemma present_file_builds_image_witness :
  fs_with_app (local_path_of script_file) = true /\
  exists ns log,
    evaluate fs_with_app script_file = (Ok ns, log) /\
    Modal.local_files (ns_image ns) =
      [(Pathlib.mkPath true ["srv"; "app.py"], "/root/app.py")].
Proof.
  split; [reflexivity |].
  destruct (present_file_builds_image fs_with_app script_file eq_refl)
    as (ns & log & He & Hf & _).
  exists ns, log. split; [exact He | exact Hf].
Defined.

(** C6, as stated, fails: the three requirements are not exact pins.
    [streamlit~=1.35.0] is satisfied by 1.35.0 and by 1.35.1, two different
    versions. *)
Lemma packages_not_pinned_exactly :
  ~ packages_pinned_exactly uv_pip_install_args.
Proof.
  intros (rs & Hp & _ & Hf).
  destruct rs as [|r rs]; [discriminate Hp |].
  injection Hp as Hr _. subst r.
  apply Forall_inv in Hf.
  specialize (Hf [1; 35; 0]%N [1; 35; 1]%N eq_refl eq_refl).
  vm_compute in Hf. discriminate Hf.
Qed.

(** C6, amended. When the module evaluates, the image installs exactly
    three requirements, named streamlit, numpy and pandas, each with a
    compatible-release specifier ([~=]): none is left without a version
    constraint, and a three-segment version satisfies one exactly when it is
    in the named minor series at or above the named patch level (streamlit
    1.35.z with z >= 0, numpy 1.26.z with z >= 4, pandas 2.2.z with
    z >= 2). *)
Theorem packages_compatible_release (fs : FileSystem) (file : Pathlib.Path) :
  fs (local_path_of file) = true ->
  exists ns log r1 r2 r3,
    evaluate fs file = (Ok ns, log) /\
    map Pep440.parse_requirement (Modal.pip_packages (ns_image ns)) =
      [Some r1; Some r2; Some r3] /\
    map Pep440.req_name [r1; r2; r3] = ["streamlit"; "numpy"; "pandas"] /\
    map Pep440.req_spec [r1; r2; r3] =
      [Some (Pep440.Compatible, [1; 35; 0]%N);
       Some (Pep440.Compatible, [1; 26; 4]%N);
       Some (Pep440.Compatible, [2; 2; 2]%N)] /\
    (forall a b c, Pep440.satisfies r1 [a; b; c] = true <->
                   a = 1%N /\ b = 35%N /\ (0 <= c)%N) /\
    (forall a b c, Pep440.satisfies r2 [a; b; c] = true <->
                   a = 1%N /\ b = 26%N /\ (4 <= c)%N) /\
    (forall a b c, Pep440.satisfies r3 [a; b; c] = true <->
                   a = 2%N /\ b = 2%N /\ (2 <= c)%N).
Proof.
  intros H.
  destruct (evaluate_present fs file H) as (ns & He & _ & _ & Hi & _).
  exists ns. eexists.
  exists (Pep440.mkRequirement "streamlit"
            (Some (Pep440.Compatible, [1; 35; 0]%N))),
         (Pep440.mkRequirement "numpy"
            (Some (Pep440.Compatible, [1; 26; 4]%N))),
         (Pep440.mkRequirement "pandas"
            (Some (Pep440.Compatible, [2; 2; 2]%N))).
  split; [exact He |]. rewrite Hi. cbn [Modal.pip_packages].
  split; [reflexivity |]. split; [reflexivity |]. split; [reflexivity |].
  unfold Pep440.satisfies. cbn [Pep440.req_spec].
  split; [| split]; intros a b c; apply compatible_three.
Qed.

Lemma packages_compatible_release_witness :
  fs_with_app (local_path_of script_file) = true /\
  exists ns log,
    evaluate fs_with_app script_file = (Ok ns, log) /\
    List.length (Modal.pip_packages (ns_image ns)) = 3%nat.
Proof.
  split; [reflexivity |].
  destruct (packages_compatible_release fs_with_app script_file eq_refl)
    as (ns & log & r1 & r2 & r3 & He & Hp & _).
  exists ns, log. split; [exact He |].
  rewrite <- (length_map Pep440.parse_requirement), Hp. reflexivity.
Defined.

(** C7. When the module evaluates, one application is created, named
    [streamlit-dashboard]; one function, [run], is registered in it, as a web
    server on port 8000 with at most 100 concurrent inputs; and the launch
    command passes the same port, 8000, to the server. *)
Theorem one_app_one_web_server (fs : FileSystem) (file : Pathlib.Path) :
  fs (local_path_of file) = true ->
  exists ns log f,
    evaluate fs file = (Ok ns, log) /\
    List.length (filter Modal.creates_app log) = 1%nat /\
    List.length (filter Modal.registers_function log) = 1%nat /\
    Modal.app_name (ns_app ns) = "streamlit-dashboard" /\
    Modal.registered (ns_app ns) = [("run", f)] /\
    Modal.web_server_port f = Some 8000%Z /\
    Modal.max_concurrent_inputs f = Some 100%Z /\
    forall t, exists cmd,
      snd (Modal.raw_f f t) = (t ++ [Subprocess.OpPopen cmd true])%list /\
      contains cmd "--server.port 8000" = true.
Proof.
  intros H.
  destruct (evaluate_present fs file H) as (ns & He & _ & _ & _ & Ha).
  exists ns. eexists. eexists. split; [exact He |].
  rewrite Ha. cbn [Modal.registered Modal.app_name].
  do 4 (split; [reflexivity |]). do 2 (split; [reflexivity |]).
  intros t. eexists. cbn [Modal.raw_f]. rewrite run_trace.
  split; reflexivity.
Qed.

Lemma one_app_one_web_server_witness :
  fs_with_app (local_path_of script_file) = true /\
  exists ns log,
    evaluate fs_with_app script_file = (Ok ns, log) /\
    Modal.app_name (ns_app ns) = "streamlit-dashboard" /\
    List.length (Modal.registered (ns_app ns)) = 1%nat.
Proof.
  split; [reflexivity |].
  destruct (one_app_one_web_server fs_with_app script_file eq_refl)
    as (ns & log & f & He & _ & _ & Hn & Hr & _).
  exists ns, log. split; [exact He |]. split; [exact Hn |].
  rewrite Hr. reflexivity.
Defined.

(** C8. From any history of calls, [run] returns [None] after making one
    call, a [Popen] through the shell; it makes no call that waits for, polls
    or communicates with the child. *)
Theorem run_launches_and_returns (t : list Subprocess.op) :
  exists ops,
    run t = (tt, (t ++ ops)%list) /\
    map Subprocess.is_popen ops = [true] /\
    existsb Subprocess.observes_child ops = false.
Proof.
  eexists. split; [apply run_trace |]. split; reflexivity.
Qed.

(** C9. [run] takes no argument, and whatever has happened before, an
    invocation starts the same command line: two invocations, from any two
    histories or one after the other, give [Popen] character-for-character
    the same string. *)
Theorem run_is_deterministic (t1 t2 : list Subprocess.op) :
  exists cmd,
    snd (run t1) = (t1 ++ [Subprocess.OpPopen cmd true])%list /\
    snd (run t2) = (t2 ++ [Subprocess.OpPopen cmd true])%list /\
    snd (run (snd (run t1))) =
      (t1 ++ [Subprocess.OpPopen cmd true; Subprocess.OpPopen cmd true])%list /\
    Subprocess.launched (snd (run (snd (run [])))) = [cmd; cmd].
Proof.
  exists (launch_cmd streamlit_script_remote_path).
  rewrite !run_trace. cbn [snd]. rewrite <- app_assoc.
  repeat split.
Qed.

(** C10. When the module evaluates, the remote path of the file embedded
    in the image and the script path in the command started by the registered
    function are the same string, [/root/app.py]: the third word the shell
    reads from the command is the destination the image step was given. *)
Theorem embedded_path_is_launched_path (fs : FileSystem) (file : Pathlib.Path) :
  fs (local_path_of file) = true ->
  exists ns log f remote,
    evaluate fs file = (Ok ns, log) /\
    remote = "/root/app.py" /\
    map snd (Modal.local_files (ns_image ns)) = [remote] /\
    Modal.local_files (Modal.app_image (ns_app ns)) =
      Modal.local_files (ns_image ns) /\
    Modal.registered (ns_app ns) = [("run", f)] /\
    forall t, exists cmd argv,
      snd (Modal.raw_f f t) = (t ++ [Subprocess.OpPopen cmd true])%list /\
      cmd = launch_cmd remote /\
      Sh.words cmd = Some argv /\
      nth_error argv 2 = Some remote.
Proof.
  intros H.
  destruct (evaluate_present fs file H) as (ns & He & _ & _ & Hi & Ha).
  exists ns. eexists. eexists. exists streamlit_script_remote_path.
  split; [exact He |]. rewrite Ha, Hi.
  cbn [Modal.registered Modal.app_image Modal.local_files map snd].
  do 4 (split; [reflexivity |]).
  intros t. exists (launch_cmd streamlit_script_remote_path).
  exists (launch_argv streamlit_script_remote_path).
  cbn [Modal.raw_f]. rewrite run_trace.
  split; [reflexivity |]. split; [reflexivity |].
  split; [apply words_launch_cmd | reflexivity].
Qed.

Lemma embedded_path_is_launched_path_witness :
  fs_with_app (local_path_of script_file) = true /\
  exists ns log,
    evaluate fs_with_app script_file = (Ok ns, log) /\
    map snd (Modal.local_files (ns_image ns)) = ["/root/app.py"].
Proof.
  split; [reflexivity |].
  destruct (embedded_path_is_launched_path fs_with_app script_file eq_refl)
    as (ns & log & f & remote & He & Hr & Hf & _).
  exists ns, log. split; [exact He |]. rewrite Hf, Hr. reflexivity.
Defined.


(** * Further properties of the script *)

(** ** Helper facts *)

Lemma length_append' (a b : string) :
  String.length (a ++ b) = (String.length a + String.length b)%nat.
Proof.
  induction a as [|c a IH]; simpl; [reflexivity | now rewrite IH].
Qed.

Lemma replace_squote_length (s : string) :
  (String.length s <= String.length (Shlex.replace_squote s))%nat.
Proof.
  induction s as [|c s IH]; simpl; [lia |].
  destruct (Ascii.eqb c squote); simpl; lia.
Qed.

Lemma find_unsafe_safe (s : string) :
  forallb_string Shlex.is_safe_char s = true -> Shlex.find_unsafe s = None.
Proof.
  induction s as [|c s IH]; simpl; [reflexivity |].
  destruct (Shlex.is_safe_char c); [exact IH | discriminate].
Qed.

(** ** The quoting step (line 36) *)

(** X1. [shlex.quote] returns its argument unchanged exactly when the
    argument is not empty and made of safe characters only; the empty string
    and any string with another character come back changed. *)
Theorem quote_unchanged_iff (p : string) :
  Shlex.quote p = p <->
  p <> EmptyString /\ forallb_string Shlex.is_safe_char p = true.
Proof.
  split.
  - intros H. destruct p as [|c p]; [discriminate H |].
    split; [discriminate |].
    unfold Shlex.quote in H.
    destruct (Shlex.find_unsafe (String c p)) eqn:E.
    + exfalso. apply (f_equal String.length) in H.
      rewrite !length_append' in H. unfold str1 in H.
      pose proof (replace_squote_length (String c p)) as HL.
      cbn [String.length] in H. cbn [String.length] in HL. lia.
    + now apply find_unsafe_none.
  - intros [Hne Hs]. destruct p as [|c p]; [now elim Hne |].
    unfold Shlex.quote. now rewrite (find_unsafe_safe _ Hs).
Qed.

(** X2. Round trip: whatever the string, the shell reads its quoted form
    as exactly one word, the string itself. *)
Theorem quote_round_trip (p : string) :
  Sh.words (Shlex.quote p) = Some [p].
Proof.
  unfold Sh.words, Shlex.quote. destruct p as [|c p]; [reflexivity |].
  destruct (Shlex.find_unsafe (String c p)) eqn:E.
  - unfold str1. cbn [append].
    change (Sh.lex Sh.Unquoted None []
              (String squote (Shlex.replace_squote (String c p)
                 ++ String squote EmptyString)))
      with (Sh.lex Sh.InSingle (Some EmptyString) []
              (Shlex.replace_squote (String c p)
                 ++ String squote EmptyString)).
    rewrite lex_single_run. reflexivity.
  - apply find_unsafe_none in E. simpl in E.
    apply andb_true_iff in E as [Hc Hp].
    destruct (safe_char_is_literal c Hc) as (Hb & Hq & Hd & Hx).
    simpl. rewrite Hb, Hq, Hd, Hx. unfold Sh.push; simpl.
    rewrite <- (append_empty_r p) at 1.
    rewrite lex_safe_run by exact Hp. reflexivity.
Qed.

(** ** The command line (lines 36-37) *)

(** X3. Two remote paths that give the same launch command are the same
    path: quoting never makes two different paths collide. *)
Theorem launch_cmd_injective (p q : string) :
  launch_cmd p = launch_cmd q -> p = q.
Proof.
  intros H. apply (f_equal Sh.words) in H.
  rewrite !words_launch_cmd in H. unfold launch_argv in H.
  now injection H.
Qed.

Lemma launch_cmd_injective_witness :
  launch_cmd "/root/app.py" = launch_cmd streamlit_script_remote_path /\
  "/root/app.py" = streamlit_script_remote_path.
Proof.
  split; [reflexivity |].
  apply (launch_cmd_injective "/root/app.py" streamlit_script_remote_path).
  reflexivity.
Defined.

(** ** Module evaluation (lines 7-34) *)

(** X4. Evaluation looks at the file system in one place only: two file
    systems that agree on whether the script's [app.py] exists give the same
    outcome and the same calls. *)
Theorem evaluate_reads_only_app_py (fs1 fs2 : FileSystem) (file : Pathlib.Path) :
  fs1 (local_path_of file) = fs2 (local_path_of file) ->
  evaluate fs1 file = evaluate fs2 file.
Proof.
  intros H. unfold evaluate, module_body. now rewrite H.
Qed.

Lemma evaluate_reads_only_app_py_witness :
  fs_with_app (local_path_of script_file) =
    (fun _ => true) (local_path_of script_file) /\
  evaluate fs_with_app script_file = evaluate (fun _ => true) script_file.
Proof.
  split; [reflexivity |].
  apply (evaluate_reads_only_app_py fs_with_app (fun _ => true) script_file).
  reflexivity.
Defined.



(** ** The bundled file's location (line 7) *)

(** X6. The path checked and embedded is the script's own path exactly
    when the script has a name and that name is [app.py]; for a script under
    any other name the bundled file is a different path. *)
Theorem local_path_is_script_iff (file : Pathlib.Path) :
  local_path_of file = file <->
  Pathlib.parts file <> [] /\ Pathlib.name file = "app.py".
Proof.
  destruct file as [a l].
  unfold local_path_of, Pathlib.joinpath, Pathlib.parent, Pathlib.name.
  cbn [Pathlib.parts Pathlib.absolute]. split.
  - intros H. injection H as H. split.
    + intros ->. discriminate H.
    + rewrite <- H at 1. apply last_snoc.
  - intros [Hne Hn]. f_equal.
    rewrite (app_removelast_last EmptyString Hne) at 2. now rewrite Hn.
Qed.
